(** * master.js: the session manager and its HTTP send endpoints

    A shallow embedding of [src/master.js]: one process-wide connection
    handle [sock], the [startWhatsApp] routine that (re)creates it, the
    [connection.update] listener that decides between reconnecting and
    stopping, and the ten HTTP handlers ([GET /status] and nine
    [POST /send...]).

    The session library (Baileys) and the HTTP framework (Express) are
    not part of the program: what they return is taken as a parameter. *)

From Stdlib Require Import List String Bool Arith Lia.
From Stdlib Require Import Floats.PrimFloat.
Import ListNotations.
Local Open Scope string_scope.
Set Warnings "-register-all".

(** ** JavaScript values *)

Module Js.

(** The values a parsed JSON body, an event argument or a library object
    property can hold.  An object is its own-property list in insertion
    order. *)
Inductive Val : Type :=
| Undefined
| Null
| Bool (b : bool)
| Num (x : float)
| Str (s : string)
| Obj (fields : list (string * Val))
| Arr (items : list Val).

(** [ToBoolean]: the falsy values are undefined, null, false, +0, -0, NaN
    and the empty string. *)
Definition truthy (v : Val) : bool :=
  match v with
  | Undefined | Null => false
  | Bool b => b
  | Num x => negb (PrimFloat.eqb x 0%float) && PrimFloat.eqb x x
  | Str s => negb (String.eqb s "")
  | Obj _ | Arr _ => true
  end.

(** [a || b] *)
Definition or (a b : Val) : Val := if truthy a then a else b.

(** [a && b] *)
Definition and (a b : Val) : Val := if truthy a then b else a.

Definition nullish (v : Val) : bool :=
  match v with
  | Undefined | Null => true
  | _ => false
  end.

Fixpoint lookup (k : string) (fields : list (string * Val)) : Val :=
  match fields with
  | [] => Undefined
  | (k', v) :: rest => if String.eqb k k' then v else lookup k rest
  end.

(** [v.k] on a value that is not nullish.  None of the property names this
    program reads is defined on the prototypes of primitives or arrays, so
    only an object's own fields answer. *)
Definition get (v : Val) (k : string) : Val :=
  match v with
  | Obj fields => lookup k fields
  | _ => Undefined
  end.

(** [v?.k] *)
Definition optGet (v : Val) (k : string) : Val :=
  if nullish v then Undefined else get v k.

(** [v !== 401], strict inequality with a number literal: a value of
    another type is never equal, numbers compare as IEEE doubles. *)
Definition strictNeqNum (v : Val) (n : float) : bool :=
  match v with
  | Num x => negb (PrimFloat.eqb x n)
  | _ => true
  end.

(** [v === "lit"] *)
Definition strictEqStr (v : Val) (lit : string) : bool :=
  match v with
  | Str s => String.eqb s lit
  | _ => false
  end.

End Js.

(** ** Configuration values (lines 32-36) *)

Definition PORT : nat := 3000.
Definition SESSION_FOLDER : string := "auth_info_master".
Definition DEFAULT_TARGET_JID : string := "YourPhoneNumber@s.whatsapp.net".

(** ** Objects of the session library *)

(** An [Error] object as the library or the runtime throws it; the program
    reads only its [message]. *)
Record Error : Type := { message : string }.

(** The two functions the program registers as listeners: the [saveCreds]
    that [useMultiFileAuthState folder] resolves with (library code), and
    the arrow function of lines 58-71. *)
Inductive Callback : Type :=
| saveCreds (folder : string)
| connectionUpdateHandler.

(** The argument of [makeWASocket] (lines 48-52); [logger] is the pino
    logger of line 28, kept as its level. *)
Record SocketConfig : Type := {
  auth : Js.Val;
  logger : string;
  printQRInTerminal : bool
}.

(** The object [makeWASocket] returns, as far as the program touches it:
    the [state] property [GET /status] reads (owned by the library) and
    the listeners registered through [ev.on], oldest first. *)
Record Socket : Type := {
  config : SocketConfig;
  state : Js.Val;
  ev : list (string * Callback)
}.

(** What the library answers.  [socketState cfg] is the [state] property
    of a socket made from [cfg]; [sendMessage s target content] is [None]
    when the promise fulfils and [Some e] when the call throws or the
    promise rejects with [e]. *)
Record Library : Type := {
  socketState : SocketConfig -> Js.Val;
  sendMessage : Socket -> Js.Val -> Js.Val -> option Error
}.

(** ** The process *)

(** Who waits for a [startWhatsApp] call suspended at its [await]:
    [startService] (line 250), or nobody (the call of line 64, whose
    promise is dropped). *)
Inductive Caller : Type :=
| fromStartService
| fromCloseHandler.

(** The module-level state: the global [sock] of line 38 ([None] is
    [undefined]) and the calls of [startWhatsApp] suspended at line 47. *)
Record Process : Type := {
  sock : option Socket;
  awaiting : list Caller
}.

Definition initial : Process := {| sock := None; awaiting := [] |}.

(** What a piece of code does to the outside, in order. *)
Inductive Effect : Type :=
| console_log (msg : string)
| console_error (msg : string) (e : Error)
| call_startWhatsApp
| call_useMultiFileAuthState (folder : string)
| call_saveCreds (folder : string) (arg : Js.Val)
| call_sendMessage (s : Socket) (target content : Js.Val)
| respond (code : nat) (body : Js.Val)
| listen (port : nat).

(** ** A monad for handler code: state, exceptions and an effect trace *)

Inductive Completion (A : Type) : Type :=
| Normal (a : A)
| Throw (e : Error).
Arguments Normal {A} a.
Arguments Throw {A} e.

Record Run (A : Type) : Type := {
  completion : Completion A;
  after : Process;
  trace : list Effect
}.
Arguments completion {A} r.
Arguments after {A} r.
Arguments trace {A} r.

Definition M (A : Type) : Type := Process -> Run A.

Definition ret {A : Type} (a : A) : M A :=
  fun p => {| completion := Normal a; after := p; trace := [] |}.

Definition bind {A B : Type} (m : M A) (f : A -> M B) : M B :=
  fun p =>
    let r := m p in
    match completion r with
    | Normal a =>
        let r' := f a (after r) in
        {| completion := completion r'; after := after r';
           trace := trace r ++ trace r' |}
    | Throw e => {| completion := Throw e; after := after r; trace := trace r |}
    end.

Definition throw {A : Type} (e : Error) : M A :=
  fun p => {| completion := Throw e; after := p; trace := [] |}.

(** [try { body } catch (error) { handler }] *)
Definition tryCatch {A : Type} (body : M A) (handler : Error -> M A) : M A :=
  fun p =>
    let r := body p in
    match completion r with
    | Normal _ => r
    | Throw e =>
        let r' := handler e (after r) in
        {| completion := completion r'; after := after r';
           trace := trace r ++ trace r' |}
    end.

Definition tell (e : Effect) : M unit :=
  fun p => {| completion := Normal tt; after := p; trace := [e] |}.

Definition readProcess : M Process :=
  fun p => {| completion := Normal p; after := p; trace := [] |}.

Definition writeProcess (p' : Process) : M unit :=
  fun _ => {| completion := Normal tt; after := p'; trace := [] |}.

Notation "x <- m ;; k" := (bind m (fun x => k))
  (at level 61, m at next level, right associativity).
Notation "m ;; k" := (bind m (fun _ => k))
  (at level 61, right associativity).

(** ** The program *)

Section Service.

Variable lib : Library.

(** [makeWASocket(cfg)]: a new object, no listener of the program on it. *)
Definition makeWASocket (cfg : SocketConfig) : Socket :=
  {| config := cfg; state := socketState lib cfg; ev := [] |}.

Definition addListener (name : string) (cb : Callback) (s : Socket) : Socket :=
  {| config := config s; state := state s; ev := ev s ++ [(name, cb)] |}.

Definition undefinedHas (prop : string) : Error :=
  {| message := "Cannot read properties of undefined (reading '" ++ prop ++ "')" |}.

(** [sock.ev.on(name, cb)], through the global [sock]. *)
Definition sock_ev_on (name : string) (cb : Callback) : M unit :=
  p <- readProcess ;;
  match sock p with
  | None => throw (undefinedHas "ev")
  | Some s =>
      writeProcess {| sock := Some (addListener name cb s); awaiting := awaiting p |}
  end.

(** *** startWhatsApp (lines 46-72) *)

(** The call itself runs up to the [await] of line 47: it asks the library
    for the stored authentication state and suspends. *)
Definition startWhatsApp (who : Caller) : M unit :=
  tell call_startWhatsApp ;;
  tell (call_useMultiFileAuthState SESSION_FOLDER) ;;
  p <- readProcess ;;
  writeProcess {| sock := sock p; awaiting := awaiting p ++ [who] |}.

(** Lines 48-71, run when the promise of line 47 fulfils with
    [{ state: authState, saveCreds }]. *)
Definition startWhatsApp_resumed (authState : Js.Val) : M unit :=
  p <- readProcess ;;
  writeProcess
    {| sock := Some (makeWASocket {| auth := authState; logger := "info";
                                      printQRInTerminal := true |});
       awaiting := awaiting p |} ;;
  sock_ev_on "creds.update" (saveCreds SESSION_FOLDER) ;;
  sock_ev_on "connection.update" connectionUpdateHandler.

(** [lastDisconnect?.error?.output?.statusCode] (line 61) *)
Definition errorCodeOf (lastDisconnect : Js.Val) : Js.Val :=
  Js.optGet (Js.optGet (Js.optGet lastDisconnect "error") "output") "statusCode".

Definition cannotDestructure (prop : string) (v : Js.Val) : Error :=
  {| message := "Cannot destructure property '" ++ prop ++ "' of 'update' as it is "
                ++ match v with Js.Null => "null" | _ => "undefined" end ++ "." |}.

(** The [connection.update] listener (lines 58-71). *)
Definition onConnectionUpdate (update : Js.Val) : M unit :=
  if Js.nullish update then throw (cannotDestructure "connection" update)
  else
    let connection := Js.get update "connection" in
    let lastDisconnect := Js.get update "lastDisconnect" in
    if Js.strictEqStr connection "close" then
      let errorCode := errorCodeOf lastDisconnect in
      if Js.strictNeqNum errorCode 401%float then
        tell (console_log "Connection closed. Reconnecting...") ;;
        startWhatsApp fromCloseHandler
      else
        tell (console_log "Connection closed. Logged out.")
    else if Js.strictEqStr connection "open" then
      tell (console_log "Connected to WhatsApp!")
    else ret tt.

(** *** startService (lines 249-256) *)

Definition startService : M unit := startWhatsApp fromStartService.

(** The promise of the oldest suspended [startWhatsApp] fulfils: the call
    finishes, and [startService], when it is the one waiting, goes on to
    [app.listen]. *)
Definition authStateLoaded (authState : Js.Val) : M unit :=
  p <- readProcess ;;
  match awaiting p with
  | [] => ret tt
  | who :: rest =>
      writeProcess {| sock := sock p; awaiting := rest |} ;;
      startWhatsApp_resumed authState ;;
      match who with
      | fromStartService =>
          tell (listen PORT) ;;
          tell (console_log "Master service running on port 3000")
      | fromCloseHandler => ret tt
      end
  end.

(** *** Event delivery by the library's emitter *)

Definition invoke (cb : Callback) (arg : Js.Val) : M unit :=
  match cb with
  | saveCreds folder => tell (call_saveCreds folder arg)
  | connectionUpdateHandler => onConnectionUpdate arg
  end.

Fixpoint emitTo (listeners : list (string * Callback)) (name : string)
    (arg : Js.Val) : M unit :=
  match listeners with
  | [] => ret tt
  | (n, cb) :: rest =>
      (if String.eqb n name then invoke cb arg else ret tt) ;;
      emitTo rest name arg
  end.

(** [s.ev.emit(name, arg)] *)
Definition emit (s : Socket) (name : string) (arg : Js.Val) : M unit :=
  emitTo (ev s) name arg.

(** *** The HTTP endpoints (lines 80-241) *)

(** [req.body] after [express.json()]: the own properties of the parsed
    object, none when the request had no JSON body. *)
Definition Body : Type := list (string * Js.Val).

Definition res_json (body : Js.Val) : M unit := tell (respond 200 body).

Definition res_status_json (code : nat) (body : Js.Val) : M unit :=
  tell (respond code body).

(** [await sock.sendMessage(target, content)] *)
Definition sock_sendMessage (target content : Js.Val) : M unit :=
  p <- readProcess ;;
  match sock p with
  | None => throw (undefinedHas "sendMessage")
  | Some s =>
      tell (call_sendMessage s target content) ;;
      match sendMessage lib s target content with
      | None => ret tt
      | Some e => throw e
      end
  end.

(** [sock && sock.state] *)
Definition sockAndState (p : Process) : Js.Val :=
  match sock p with
  | None => Js.Undefined
  | Some s => state s
  end.

(** GET /status (lines 80-86) *)
Definition get_status : M unit :=
  p <- readProcess ;;
  if Js.truthy (sockAndState p) then
    res_json (Js.Obj [("status", Js.Str "Connected"); ("state", sockAndState p)])
  else
    res_json (Js.Obj [("status", Js.Str "Not connected")]).

(** POST /sendText (lines 93-103) *)
Definition post_sendText (body : Body) : M unit :=
  let jid := Js.lookup "jid" body in
  let text := Js.lookup "text" body in
  let target := Js.or jid (Js.Str DEFAULT_TARGET_JID) in
  tryCatch
    (sock_sendMessage target (Js.Obj [("text", text)]) ;;
     res_json (Js.Obj [("status", Js.Str "Text message sent"); ("target", target)]))
    (fun error =>
       tell (console_error "Error sending text:" error) ;;
       res_status_json 500 (Js.Obj [("error", Js.Str (message error))])).

(** POST /sendImage (lines 110-120) *)
Definition post_sendImage (body : Body) : M unit :=
  let jid := Js.lookup "jid" body in
  let imageUrl := Js.lookup "imageUrl" body in
  let caption := Js.lookup "caption" body in
  let target := Js.or jid (Js.Str DEFAULT_TARGET_JID) in
  tryCatch
    (sock_sendMessage target
       (Js.Obj [("image", Js.Obj [("url", imageUrl)]);
                ("caption", Js.or caption (Js.Str ""))]) ;;
     res_json (Js.Obj [("status", Js.Str "Image message sent"); ("target", target)]))
    (fun error =>
       tell (console_error "Error sending image:" error) ;;
       res_status_json 500 (Js.Obj [("error", Js.Str (message error))])).

(** POST /sendVideo (lines 128-139) *)
Definition post_sendVideo (body : Body) : M unit :=
  let jid := Js.lookup "jid" body in
  let videoUrl := Js.lookup "videoUrl" body in
  let caption := Js.lookup "caption" body in
  let videoNote := Js.lookup "videoNote" body in
  let target := Js.or jid (Js.Str DEFAULT_TARGET_JID) in
  tryCatch
    (sock_sendMessage target
       (Js.Obj [("video", Js.Obj [("url", videoUrl)]);
                ("caption", Js.or caption (Js.Str ""));
                ("gifPlayback", Js.or videoNote (Js.Bool false))]) ;;
     res_json (Js.Obj [("status", Js.Str "Video message sent"); ("target", target)]))
    (fun error =>
       tell (console_error "Error sending video:" error) ;;
       res_status_json 500 (Js.Obj [("error", Js.Str (message error))])).

(** POST /sendAudio (lines 146-156) *)
Definition post_sendAudio (body : Body) : M unit :=
  let jid := Js.lookup "jid" body in
  let audioUrl := Js.lookup "audioUrl" body in
  let mimetype := Js.lookup "mimetype" body in
  let target := Js.or jid (Js.Str DEFAULT_TARGET_JID) in
  tryCatch
    (sock_sendMessage target
       (Js.Obj [("audio", Js.Obj [("url", audioUrl)]);
                ("mimetype", Js.or mimetype (Js.Str "audio/mpeg"))]) ;;
     res_json (Js.Obj [("status", Js.Str "Audio message sent"); ("target", target)]))
    (fun error =>
       tell (console_error "Error sending audio:" error) ;;
       res_status_json 500 (Js.Obj [("error", Js.Str (message error))])).

(** POST /sendDocument (lines 163-173) *)
Definition post_sendDocument (body : Body) : M unit :=
  let jid := Js.lookup "jid" body in
  let documentUrl := Js.lookup "documentUrl" body in
  let mimetype := Js.lookup "mimetype" body in
  let filename := Js.lookup "filename" body in
  let target := Js.or jid (Js.Str DEFAULT_TARGET_JID) in
  tryCatch
    (sock_sendMessage target
       (Js.Obj [("document", Js.Obj [("url", documentUrl)]);
                ("mimetype", Js.or mimetype (Js.Str "application/pdf"));
                ("fileName", Js.or filename (Js.Str "document"))]) ;;
     res_json (Js.Obj [("status", Js.Str "Document message sent"); ("target", target)]))
    (fun error =>
       tell (console_error "Error sending document:" error) ;;
       res_status_json 500 (Js.Obj [("error", Js.Str (message error))])).

(** POST /sendLocation (lines 180-190) *)
Definition post_sendLocation (body : Body) : M unit :=
  let jid := Js.lookup "jid" body in
  let latitude := Js.lookup "latitude" body in
  let longitude := Js.lookup "longitude" body in
  let name := Js.lookup "name" body in
  let address := Js.lookup "address" body in
  let target := Js.or jid (Js.Str DEFAULT_TARGET_JID) in
  tryCatch
    (sock_sendMessage target
       (Js.Obj [("location",
                 Js.Obj [("degreesLatitude", latitude);
                         ("degreesLongitude", longitude);
                         ("name", Js.or name (Js.Str ""));
                         ("address", Js.or address (Js.Str ""))])]) ;;
     res_json (Js.Obj [("status", Js.Str "Location message sent"); ("target", target)]))
    (fun error =>
       tell (console_error "Error sending location:" error) ;;
       res_status_json 500 (Js.Obj [("error", Js.Str (message error))])).

(** POST /sendContact (lines 197-207) *)
Definition post_sendContact (body : Body) : M unit :=
  let jid := Js.lookup "jid" body in
  let vcard := Js.lookup "vcard" body in
  let target := Js.or jid (Js.Str DEFAULT_TARGET_JID) in
  tryCatch
    (sock_sendMessage target
       (Js.Obj [("contacts",
                 Js.Obj [("displayName", Js.Str "Contact");
                         ("contacts", Js.Arr [Js.Obj [("vcard", vcard)]])])]) ;;
     res_json (Js.Obj [("status", Js.Str "Contact message sent"); ("target", target)]))
    (fun error =>
       tell (console_error "Error sending contact:" error) ;;
       res_status_json 500 (Js.Obj [("error", Js.Str (message error))])).

(** POST /sendReaction (lines 214-224) *)
Definition post_sendReaction (body : Body) : M unit :=
  let jid := Js.lookup "jid" body in
  let reaction := Js.lookup "reaction" body in
  let key := Js.lookup "key" body in
  let target := Js.or jid (Js.Str DEFAULT_TARGET_JID) in
  tryCatch
    (sock_sendMessage target
       (Js.Obj [("react", Js.Obj [("text", reaction); ("key", key)])]) ;;
     res_json (Js.Obj [("status", Js.Str "Reaction sent"); ("target", target)]))
    (fun error =>
       tell (console_error "Error sending reaction:" error) ;;
       res_status_json 500 (Js.Obj [("error", Js.Str (message error))])).

(** POST /sendPoll (lines 231-241) *)
Definition post_sendPoll (body : Body) : M unit :=
  let jid := Js.lookup "jid" body in
  let pollName := Js.lookup "pollName" body in
  let pollValues := Js.lookup "pollValues" body in
  let selectableCount := Js.lookup "selectableCount" body in
  let toAnnouncementGroup := Js.lookup "toAnnouncementGroup" body in
  let target := Js.or jid (Js.Str DEFAULT_TARGET_JID) in
  tryCatch
    (sock_sendMessage target
       (Js.Obj [("poll",
                 Js.Obj [("name", pollName);
                         ("values", pollValues);
                         ("selectableCount", selectableCount);
                         ("toAnnouncementGroup",
                          Js.or toAnnouncementGroup (Js.Bool false))])]) ;;
     res_json (Js.Obj [("status", Js.Str "Poll message sent"); ("target", target)]))
    (fun error =>
       tell (console_error "Error sending poll:" error) ;;
       res_status_json 500 (Js.Obj [("error", Js.Str (message error))])).

(** The message kinds, one per send endpoint, and the routing table that
    [app.post] builds. *)
Inductive Kind : Type :=
| Text | Image | Video | Audio | Document | Location | Contact | Reaction | Poll.

Definition send (k : Kind) : Body -> M unit :=
  match k with
  | Text => post_sendText
  | Image => post_sendImage
  | Video => post_sendVideo
  | Audio => post_sendAudio
  | Document => post_sendDocument
  | Location => post_sendLocation
  | Contact => post_sendContact
  | Reaction => post_sendReaction
  | Poll => post_sendPoll
  end.

End Service.

(** ** Reading a trace *)

(** The network calls of a trace: socket, recipient and content of every
    [sendMessage]. *)
Fixpoint networkCalls (t : list Effect) : list (Socket * Js.Val * Js.Val) :=
  match t with
  | [] => []
  | call_sendMessage s target content :: rest =>
      (s, target, content) :: networkCalls rest
  | _ :: rest => networkCalls rest
  end.

(** The HTTP responses of a trace: status code and JSON body. *)
Fixpoint responses (t : list Effect) : list (nat * Js.Val) :=
  match t with
  | [] => []
  | respond code body :: rest => (code, body) :: responses rest
  | _ :: rest => responses rest
  end.

(** How many times a trace enters [startWhatsApp]. *)
Fixpoint establishCalls (t : list Effect) : nat :=
  match t with
  | [] => 0
  | call_startWhatsApp :: rest => S (establishCalls rest)
  | _ :: rest => establishCalls rest
  end.

(** The recipient every send endpoint computes: [jid || DEFAULT_TARGET_JID]. *)
Definition targetOf (body : Body) : Js.Val :=
  Js.or (Js.lookup "jid" body) (Js.Str DEFAULT_TARGET_JID).

(** The three ways a send endpoint can run, for a given content and the two
    texts of the endpoint. *)
Definition noSocketRun (errLabel : string) (p : Process) : Run unit :=
  {| completion := Normal tt; after := p;
     trace := [console_error errLabel (undefinedHas "sendMessage");
               respond 500 (Js.Obj [("error",
                  Js.Str (message (undefinedHas "sendMessage")))])] |}.

Definition sentRun (s : Socket) (target content : Js.Val) (sent : string)
    (p : Process) : Run unit :=
  {| completion := Normal tt; after := p;
     trace := [call_sendMessage s target content;
               respond 200 (Js.Obj [("status", Js.Str sent); ("target", target)])] |}.

Definition failedRun (s : Socket) (target content : Js.Val) (errLabel : string)
    (e : Error) (p : Process) : Run unit :=
  {| completion := Normal tt; after := p;
     trace := [call_sendMessage s target content;
               console_error errLabel e;
               respond 500 (Js.Obj [("error", Js.Str (message e))])] |}.

Definition sendRun (lib : Library) (target content : Js.Val)
    (sent errLabel : string) (p : Process) : Run unit :=
  match sock p with
  | None => noSocketRun errLabel p
  | Some s =>
      match sendMessage lib s target content with
      | None => sentRun s target content sent p
      | Some e => failedRun s target content errLabel e p
      end
  end.

(** The recipients of the network calls of a trace. *)
Definition recipients (t : list Effect) : list Js.Val :=
  map (fun c => snd (fst c)) (networkCalls t).

(** ** Concrete libraries, processes and events *)

(** A library whose sockets carry no [state] property and whose sends
    all succeed. *)
Definition delivering : Library :=
  {| socketState := fun _ => Js.Undefined;
     sendMessage := fun _ _ _ => None |}.

(** A library whose sockets report the given state and whose sends are
    all rejected with the given message. *)
Definition rejecting (st : Js.Val) (msg : string) : Library :=
  {| socketState := fun _ => st;
     sendMessage := fun _ _ _ => Some {| message := msg |} |}.

Definition someCreds : Js.Val := Js.Obj [("creds", Js.Obj [])].

(** The process once [startService] has run and its authentication state
    has been loaded. *)
Definition established (lib : Library) : Process :=
  after (authStateLoaded lib someCreds (after (startService initial))).

(** The socket [startWhatsApp] leaves in [sock]. *)
Definition establishedSocket (lib : Library) (authState : Js.Val) : Socket :=
  addListener "connection.update" connectionUpdateHandler
    (addListener "creds.update" (saveCreds SESSION_FOLDER)
       (makeWASocket lib {| auth := authState; logger := "info";
                            printQRInTerminal := true |})).

Definition closeWith (code : Js.Val) : Js.Val :=
  Js.Obj [("connection", Js.Str "close");
          ("lastDisconnect",
           Js.Obj [("error", Js.Obj [("output", Js.Obj [("statusCode", code)])])])].

Definition close401 : Js.Val := closeWith (Js.Num 401%float).
Definition close428 : Js.Val := closeWith (Js.Num 428%float).
Definition closeBare : Js.Val := Js.Obj [("connection", Js.Str "close")].
Definition closeNoOutput : Js.Val :=
  Js.Obj [("connection", Js.Str "close");
          ("lastDisconnect", Js.Obj [("error", Js.Obj [])])].

(** ** Close events *)

(** [connection === "close"] (line 60) *)
Definition isClose (update : Js.Val) : bool :=
  Js.strictEqStr (Js.get update "connection") "close".

(** The [errorCode] of line 61, from the event. *)
Definition closeCode (update : Js.Val) : Js.Val :=
  errorCodeOf (Js.get update "lastDisconnect").

(** [errorCode !== 401] (line 62) *)
Definition retried (update : Js.Val) : bool :=
  Js.strictNeqNum (closeCode update) 401%float.

(** What the listener does on one close event. *)
Definition closeTrace (update : Js.Val) : list Effect :=
  if retried update
  then [console_log "Connection closed. Reconnecting...";
        call_startWhatsApp;
        call_useMultiFileAuthState SESSION_FOLDER]
  else [console_log "Connection closed. Logged out."].

(** The library emits [connection.update] on socket [s] once per element
    of [updates], in order. *)
Fixpoint deliver (s : Socket) (updates : list Js.Val) : M unit :=
  match updates with
  | [] => ret tt
  | update :: rest => emit s "connection.update" update ;; deliver s rest
  end.

(** ** What an endpoint reads and what it defaults *)

(** The properties of [req.body] each send endpoint destructures, besides
    [jid] (first line of each handler). *)
Definition fieldsOf (k : Kind) : list string :=
  match k with
  | Text => ["text"]
  | Image => ["imageUrl"; "caption"]
  | Video => ["videoUrl"; "caption"; "videoNote"]
  | Audio => ["audioUrl"; "mimetype"]
  | Document => ["documentUrl"; "mimetype"; "filename"]
  | Location => ["latitude"; "longitude"; "name"; "address"]
  | Contact => ["vcard"]
  | Reaction => ["reaction"; "key"]
  | Poll => ["pollName"; "pollValues"; "selectableCount"; "toAnnouncementGroup"]
  end.

(** The values, in a forwarded content, of the fields the endpoint writes
    as [x || default]. *)
Definition defaultedValues (k : Kind) (content : Js.Val) : list Js.Val :=
  match k with
  | Text | Contact | Reaction => []
  | Image => [Js.get content "caption"]
  | Video => [Js.get content "caption"; Js.get content "gifPlayback"]
  | Audio => [Js.get content "mimetype"]
  | Document => [Js.get content "mimetype"; Js.get content "fileName"]
  | Location => [Js.get (Js.get content "location") "name";
                 Js.get (Js.get content "location") "address"]
  | Poll => [Js.get (Js.get content "poll") "toAnnouncementGroup"]
  end.

(** The [console.error] calls of a trace. *)
Fixpoint consoleErrors (t : list Effect) : list (string * Error) :=
  match t with
  | [] => []
  | console_error msg e :: rest => (msg, e) :: consoleErrors rest
  | _ :: rest => consoleErrors rest
  end.

(** How many times a trace calls [app.listen]. *)
Fixpoint listenCalls (t : list Effect) : nat :=
  match t with
  | [] => 0
  | listen _ :: rest => S (listenCalls rest)
  | _ :: rest => listenCalls rest
  end.

(** The [saveCreds] calls of a trace. *)
Fixpoint savedCreds (t : list Effect) : list (string * Js.Val) :=
  match t with
  | [] => []
  | call_saveCreds folder arg :: rest => (folder, arg) :: savedCreds rest
  | _ :: rest => savedCreds rest
  end.

(** ** The event loop *)

(** What the runtime can hand to the program once [startService] has been
    called: a fulfilled [useMultiFileAuthState] promise, an event emitted
    by the library on one of the sockets made so far (numbered in order of
    creation), or an HTTP request. *)
Inductive Input : Type :=
| authState_ready (authState : Js.Val)
| emitted (socketNo : nat) (name : string) (arg : Js.Val)
| GET_status
| POST_send (k : Kind) (body : Body).

(** The process together with everything it has done so far and every
    socket it has made. *)
Record World : Type := {
  proc : Process;
  history : list Effect;
  sockets : list Socket
}.

(** Run a piece of handler code in a world.  An exception that leaves a
    listener goes back to the emitter that called it; the state and the
    effects reached before it stay. *)
Definition perform (m : M unit) (w : World) : World :=
  {| proc := after (m (proc w));
     history := history w ++ trace (m (proc w));
     sockets := sockets w |}.

(** The HTTP server answers only once [app.listen] has run. *)
Definition listening (w : World) : bool :=
  negb (Nat.eqb (listenCalls (history w)) 0).

Definition step (lib : Library) (i : Input) (w : World) : World :=
  match i with
  | authState_ready authState =>
      match awaiting (proc w) with
      | [] => w
      | _ :: _ =>
          let w' := perform (authStateLoaded lib authState) w in
          {| proc := proc w'; history := history w';
             sockets := sockets w ++ match sock (proc w') with
                                     | Some s => [s]
                                     | None => []
                                     end |}
      end
  | emitted socketNo name arg =>
      match nth_error (sockets w) socketNo with
      | Some s => perform (emit s name arg) w
      | None => w
      end
  | GET_status => if listening w then perform get_status w else w
  | POST_send k body => if listening w then perform (send lib k body) w else w
  end.

(** The world right after [startService()] (line 256). *)
Definition booted : World :=
  perform startService {| proc := initial; history := []; sockets := [] |}.

Definition runInputs (lib : Library) (inputs : list Input) (w : World) : World :=
  fold_left (fun w i => step lib i w) inputs w.

(** How many of the suspended calls [startService] is waiting for. *)
Fixpoint waitingStartService (callers : list Caller) : nat :=
  match callers with
  | [] => 0
  | fromStartService :: rest => S (waitingStartService rest)
  | fromCloseHandler :: rest => waitingStartService rest
  end.

(** What holds of every world the event loop can reach:
    - every socket made carries the two listeners of [startWhatsApp], once
      each, and [sock] is the newest socket made;
    - [app.listen] has run once or [startService] is still waiting;
    - it has not run before a socket was made;
    - every call of [startWhatsApp] is still suspended or has made exactly
      one socket. *)
Definition Sound (lib : Library) (w : World) : Prop :=
  Forall (fun s => exists authState, s = establishedSocket lib authState) (sockets w)
  /\ sock (proc w) = nth_error (rev (sockets w)) 0
  /\ waitingStartService (awaiting (proc w)) + listenCalls (history w) = 1
  /\ listenCalls (history w) <= List.length (sockets w)
  /\ establishCalls (history w)
     = List.length (awaiting (proc w)) + List.length (sockets w).

Definition isAuthStateReady (i : Input) : bool :=
  match i with
  | authState_ready _ => true
  | _ => false
  end.

(** ** Proofs *)

Ltac run_monad :=
  unfold tryCatch, bind, ret, throw, tell, readProcess, writeProcess,
         res_json, res_status_json; simpl.

(** Every send endpoint is an instance of [sendRun]. *)
Lemma send_run (lib : Library) (k : Kind) (body : Body) (p : Process) :
  exists content sent errLabel,
    send lib k body p = sendRun lib (targetOf body) content sent errLabel p.
Proof.
  destruct k; do 3 eexists; unfold send, sendRun;
    [ unfold post_sendText | unfold post_sendImage | unfold post_sendVideo
    | unfold post_sendAudio | unfold post_sendDocument | unfold post_sendLocation
    | unfold post_sendContact | unfold post_sendReaction | unfold post_sendPoll ];
    unfold sock_sendMessage, targetOf; run_monad;
    (destruct (sock p) as [s|]; simpl; [|reflexivity]);
    match goal with
    | |- context [call_sendMessage s ?t ?c] =>
        match goal with
        | |- context [sendMessage lib s t ?c'] => is_evar c'; unify c' c
        end;
        destruct (sendMessage lib s t c); simpl
    end; reflexivity.
Qed.

Lemma established_sock (lib : Library) :
  sock (established lib) = Some (establishedSocket lib someCreds).
Proof. reflexivity. Qed.

(** *** GET /status *)

(** C3 (as the code has it): [GET /status] never throws, changes nothing
    and answers exactly once, with one of two bodies: status "Connected"
    together with the socket's [state] when a socket exists and its [state]
    is truthy, and status "Not connected" in every other case. *)
Theorem status_two_valued (p : Process) :
  get_status p =
    {| completion := Normal tt; after := p;
       trace := [respond 200
                   (if Js.truthy (sockAndState p)
                    then Js.Obj [("status", Js.Str "Connected");
                                 ("state", sockAndState p)]
                    else Js.Obj [("status", Js.Str "Not connected")])] |}.
Proof.
  unfold get_status; run_monad.
  destruct (Js.truthy (sockAndState p)); reflexivity.
Qed.

(** C3 fails as stated: a socket that exists and whose last reported state
    is "connecting" is reported as "Connected", and no process at all is
    reported as "Connecting". *)
Lemma status_has_no_connecting :
  trace (get_status (established (rejecting (Js.Str "connecting") "")))
    = [respond 200 (Js.Obj [("status", Js.Str "Connected");
                            ("state", Js.Str "connecting")])]
  /\ ~ (exists p code body,
          In (code, body) (responses (trace (get_status p)))
          /\ Js.get body "status" = Js.Str "Connecting").
Proof.
  split; [reflexivity|].
  intros (p & code & body & Hin & Hst).
  unfold get_status in Hin; revert Hin; run_monad.
  destruct (Js.truthy (sockAndState p)); simpl;
    intros [Heq|[]]; inversion Heq; subst body; simpl in Hst; discriminate.
Qed.

(** *** The send endpoints and the connection status *)



(** *** Recipient resolution *)

(** C4 (as the code has it): every send endpoint addresses its network call
    to [jid] when [jid] is truthy and to the configured fallback otherwise:
    when [jid] is omitted, and also when it is present but falsy (the empty
    string, null, false, 0). *)
Theorem target_resolution (lib : Library) (k : Kind) (body : Body)
    (p : Process) (s : Socket) (Hs : sock p = Some s) :
  (Js.lookup "jid" body = Js.Undefined ->
     recipients (trace (send lib k body p)) = [Js.Str DEFAULT_TARGET_JID])
  /\ (Js.truthy (Js.lookup "jid" body) = true ->
     recipients (trace (send lib k body p)) = [Js.lookup "jid" body])
  /\ (Js.truthy (Js.lookup "jid" body) = false ->
     recipients (trace (send lib k body p)) = [Js.Str DEFAULT_TARGET_JID]).
Proof.
  destruct (send_run lib k body p) as (content & sent & errLabel & ->).
  assert (Hr : recipients (trace (sendRun lib (targetOf body) content sent errLabel p))
               = [targetOf body]).
  { unfold sendRun; rewrite Hs.
    destruct (sendMessage lib s (targetOf body) content); reflexivity. }
  rewrite Hr; unfold targetOf, Js.or.
  repeat split; intros H; rewrite H; reflexivity.
Qed.

Lemma target_resolution_witness :
  recipients (trace (send delivering Image [("imageUrl", Js.Str "x")]
                       (established delivering)))
    = [Js.Str DEFAULT_TARGET_JID]
  /\ recipients (trace (send delivering Image
                          [("jid", Js.Str "15551234567@s.whatsapp.net");
                           ("imageUrl", Js.Str "x")]
                          (established delivering)))
    = [Js.Str "15551234567@s.whatsapp.net"].
Proof.
  split.
  - apply (target_resolution delivering Image [("imageUrl", Js.Str "x")]
             (established delivering) _ (established_sock delivering)).
    reflexivity.
  - apply (target_resolution delivering Image
             [("jid", Js.Str "15551234567@s.whatsapp.net"); ("imageUrl", Js.Str "x")]
             (established delivering) _ (established_sock delivering)).
    reflexivity.
Defined.

(** C4 fails as stated: a request whose [jid] is present but empty is not
    sent to that identifier but to the fallback. *)
Lemma empty_jid_goes_to_fallback :
  Js.lookup "jid" [("jid", Js.Str ""); ("text", Js.Str "hi")] = Js.Str ""
  /\ recipients (trace (send delivering Text
                          [("jid", Js.Str ""); ("text", Js.Str "hi")]
                          (established delivering)))
     = [Js.Str DEFAULT_TARGET_JID]
  /\ Js.Str DEFAULT_TARGET_JID <> Js.Str "".
Proof. split; [reflexivity | split; [reflexivity | discriminate]]. Qed.

(** *** Per-kind contents *)

(** C5: a Video send forwards caption "" when the request omits [caption]
    and gif-style playback [false] when it omits [videoNote]; a Document
    send forwards mimetype "application/pdf" when the request omits
    [mimetype] and file name "document" when it omits [filename]. *)
Theorem video_document_defaults (lib : Library) (body : Body) (p : Process)
    (s : Socket) (Hs : sock p = Some s) :
  (exists content,
      networkCalls (trace (send lib Video body p)) = [(s, targetOf body, content)]
      /\ Js.get content "video" = Js.Obj [("url", Js.lookup "videoUrl" body)]
      /\ (Js.lookup "caption" body = Js.Undefined ->
          Js.get content "caption" = Js.Str "")
      /\ (Js.lookup "videoNote" body = Js.Undefined ->
          Js.get content "gifPlayback" = Js.Bool false))
  /\ (exists content,
      networkCalls (trace (send lib Document body p)) = [(s, targetOf body, content)]
      /\ Js.get content "document" = Js.Obj [("url", Js.lookup "documentUrl" body)]
      /\ (Js.lookup "mimetype" body = Js.Undefined ->
          Js.get content "mimetype" = Js.Str "application/pdf")
      /\ (Js.lookup "filename" body = Js.Undefined ->
          Js.get content "fileName" = Js.Str "document")).
Proof.
  split; eexists; (split; [|split; [|split]]).
  - unfold send, post_sendVideo, sock_sendMessage; run_monad; rewrite Hs; simpl.
    match goal with
    | |- context [sendMessage lib s ?t ?c] => destruct (sendMessage lib s t c)
    end; reflexivity.
  - reflexivity.
  - intros H; simpl; rewrite H; reflexivity.
  - intros H; simpl; rewrite H; reflexivity.
  - unfold send, post_sendDocument, sock_sendMessage; run_monad; rewrite Hs; simpl.
    match goal with
    | |- context [sendMessage lib s ?t ?c] => destruct (sendMessage lib s t c)
    end; reflexivity.
  - reflexivity.
  - intros H; simpl; rewrite H; reflexivity.
  - intros H; simpl; rewrite H; reflexivity.
Qed.

Lemma video_document_defaults_witness :
  networkCalls (trace (send delivering Video [("videoUrl", Js.Str "x")]
                         (established delivering)))
    = [(establishedSocket delivering someCreds, Js.Str DEFAULT_TARGET_JID,
        Js.Obj [("video", Js.Obj [("url", Js.Str "x")]);
                ("caption", Js.Str "");
                ("gifPlayback", Js.Bool false)])]
  /\ exists content,
      networkCalls (trace (send delivering Document [("documentUrl", Js.Str "x")]
                             (established delivering)))
        = [(establishedSocket delivering someCreds,
            targetOf [("documentUrl", Js.Str "x")], content)]
      /\ Js.get content "mimetype" = Js.Str "application/pdf"
      /\ Js.get content "fileName" = Js.Str "document".
Proof.
  split; [reflexivity|].
  destruct (video_document_defaults delivering [("documentUrl", Js.Str "x")]
              (established delivering) _ (established_sock delivering))
    as [_ (content & Hc & _ & Hm & Hf)].
  exists content; split; [exact Hc|].
  split; [apply Hm | apply Hf]; reflexivity.
Defined.

(** C10: a Contact send forwards a content whose [displayName] is the
    literal "Contact" and whose single contact carries the request's
    [vcard]; no other field of the request enters the content. *)
Theorem contact_display_name (lib : Library) (body : Body) (p : Process) :
  networkCalls (trace (send lib Contact body p)) =
    match sock p with
    | None => []
    | Some s =>
        [(s, targetOf body,
          Js.Obj [("contacts",
                   Js.Obj [("displayName", Js.Str "Contact");
                           ("contacts",
                            Js.Arr [Js.Obj [("vcard", Js.lookup "vcard" body)]])])])]
    end.
Proof.
  unfold send, post_sendContact, sock_sendMessage; run_monad.
  destruct (sock p) as [s|]; simpl; [|reflexivity].
  match goal with
  | |- context [sendMessage lib s ?t ?c] => destruct (sendMessage lib s t c)
  end; reflexivity.
Qed.

(** *** Results of a send *)


(** C8: no send endpoint lets an error escape: it always completes
    normally, leaves the process state as it found it, and when the
    underlying [sendMessage] raises [e] the caller gets the 500 body with
    [e]'s message. *)
Theorem send_errors_are_values (lib : Library) (k : Kind) (body : Body)
    (p : Process) :
  completion (send lib k body p) = Normal tt
  /\ after (send lib k body p) = p
  /\ (forall s, sock p = Some s ->
      exists content,
        networkCalls (trace (send lib k body p)) = [(s, targetOf body, content)]
        /\ forall e, sendMessage lib s (targetOf body) content = Some e ->
             responses (trace (send lib k body p))
               = [(500, Js.Obj [("error", Js.Str (message e))])]).
Proof.
  destruct (send_run lib k body p) as (content & sent & errLabel & ->).
  unfold sendRun.
  destruct (sock p) as [s|].
  - destruct (sendMessage lib s (targetOf body) content) as [e|] eqn:Hm;
      (split; [reflexivity|split; [reflexivity|]]);
      intros s' Hs'; injection Hs' as <-; exists content;
      (split; [reflexivity|]); intros e' He'; rewrite Hm in He'.
    + injection He' as <-; reflexivity.
    + discriminate.
  - split; [reflexivity|split; [reflexivity|]]. intros s' Hs'; discriminate.
Qed.

(** *** Establishing the connection *)

(** [startWhatsApp], once its authentication state is loaded, replaces
    [sock] by a new socket carrying exactly the two listeners, the
    credential one first. *)
Lemma startWhatsApp_resumed_run (lib : Library) (authState : Js.Val) (p : Process) :
  startWhatsApp_resumed lib authState p =
    {| completion := Normal tt;
       after := {| sock := Some (establishedSocket lib authState);
                   awaiting := awaiting p |};
       trace := [] |}.
Proof. reflexivity. Qed.

Lemma establishedSocket_listeners (lib : Library) (authState : Js.Val) :
  ev (establishedSocket lib authState) =
    [("creds.update", saveCreds SESSION_FOLDER);
     ("connection.update", connectionUpdateHandler)].
Proof. reflexivity. Qed.

(** A credential update emitted on that socket calls [saveCreds] once, with
    the update, and nothing else. *)
Lemma creds_update_calls_saveCreds (lib : Library) (authState creds : Js.Val)
    (p : Process) :
  emit (establishedSocket lib authState) "creds.update" creds p =
    {| completion := Normal tt; after := p;
       trace := [call_saveCreds SESSION_FOLDER creds] |}.
Proof. reflexivity. Qed.

(** *** Close events *)

Lemma errorCodeOf_nullish (lastDisconnect : Js.Val) :
  Js.nullish lastDisconnect = true -> errorCodeOf lastDisconnect = Js.Undefined.
Proof. unfold errorCodeOf, Js.optGet; intros ->; reflexivity. Qed.

Lemma isClose_not_nullish (update : Js.Val) :
  isClose update = true -> Js.nullish update = false.
Proof. destruct update; simpl; intros H; try reflexivity; discriminate. Qed.

(** The listener on a close event. *)
Lemma onConnectionUpdate_close (update : Js.Val) (p : Process) :
  isClose update = true ->
  onConnectionUpdate update p =
    {| completion := Normal tt;
       after := if retried update
                then {| sock := sock p; awaiting := awaiting p ++ [fromCloseHandler] |}
                else p;
       trace := closeTrace update |}.
Proof.
  intros Hc. unfold onConnectionUpdate.
  rewrite (isClose_not_nullish _ Hc).
  unfold isClose in Hc; rewrite Hc.
  unfold closeTrace, retried, closeCode.
  destruct (Js.strictNeqNum _ _); reflexivity.
Qed.

(** One emission on an established socket runs the listener once. *)
Lemma emit_close (lib : Library) (authState update : Js.Val) (p : Process) :
  isClose update = true ->
  emit (establishedSocket lib authState) "connection.update" update p =
    {| completion := Normal tt;
       after := if retried update
                then {| sock := sock p; awaiting := awaiting p ++ [fromCloseHandler] |}
                else p;
       trace := closeTrace update |}.
Proof.
  intros Hc. unfold emit. rewrite establishedSocket_listeners.
  simpl. unfold bind. simpl.
  rewrite (onConnectionUpdate_close _ _ Hc). simpl.
  rewrite app_nil_r. reflexivity.
Qed.

Lemma establishCalls_app (t u : list Effect) :
  establishCalls (t ++ u) = establishCalls t + establishCalls u.
Proof.
  induction t as [|e t IH]; [reflexivity|].
  destruct e; simpl; rewrite IH; reflexivity.
Qed.

Lemma establishCalls_closeTrace (update : Js.Val) :
  establishCalls (closeTrace update) = if retried update then 1 else 0.
Proof. unfold closeTrace; destruct (retried update); reflexivity. Qed.

(** Any number of close events in a row. *)
Lemma deliver_run (lib : Library) (authState : Js.Val) (updates : list Js.Val) :
  Forall (fun u => isClose u = true) updates ->
  forall p,
    deliver (establishedSocket lib authState) updates p =
      {| completion := Normal tt;
         after := {| sock := sock p;
                     awaiting := awaiting p
                       ++ repeat fromCloseHandler (List.length (filter retried updates)) |};
         trace := flat_map closeTrace updates |}.
Proof.
  induction 1 as [|u rest Hu _ IH]; intros p.
  - simpl. unfold ret. rewrite app_nil_r. destruct p; reflexivity.
  - simpl deliver. unfold bind. rewrite (emit_close _ _ _ _ Hu). simpl.
    rewrite IH. simpl. f_equal.
    destruct (retried u); simpl; [|reflexivity].
    rewrite <- app_assoc. reflexivity.
Qed.

(** Only a numeric code equal to 401 stops the reconnect. *)
Lemma retried_false_iff (update : Js.Val) :
  retried update = false <->
  exists x, closeCode update = Js.Num x /\ PrimFloat.eqb x 401%float = true.
Proof.
  unfold retried, Js.strictNeqNum. split.
  - destruct (closeCode update) as [| |b|x|str|fields|items]; try discriminate.
    intros H. exists x. split; [reflexivity|].
    destruct (PrimFloat.eqb x 401%float); [reflexivity|discriminate].
  - intros (x & -> & ->). reflexivity.
Qed.

(** X12: after a retried close, the next loaded authentication state puts
    a new socket, made from that state, in [sock]; the old one is not
    reused, and no call stays suspended. *)
Lemma reconnect_replaces_socket (lib : Library) (authState authState' update : Js.Val)
    (p : Process) :
  isClose update = true -> retried update = true -> awaiting p = [] ->
  after (authStateLoaded lib authState'
           (after (emit (establishedSocket lib authState) "connection.update"
                     update p)))
    = {| sock := Some (establishedSocket lib authState'); awaiting := [] |}.
Proof.
  intros Hc Hr Ha. rewrite (emit_close _ _ _ _ Hc), Hr. simpl.
  unfold authStateLoaded; run_monad. rewrite Ha. reflexivity.
Qed.

(** C9: a close event whose disconnect information is absent, or from
    which no status code can be read, makes the listener log the reconnect
    and call [startWhatsApp] once. *)
Theorem close_without_code_reconnects (update : Js.Val) (p : Process)
    (Hclose : isClose update = true)
    (Hcode : Js.nullish (Js.get update "lastDisconnect") = true
             \/ closeCode update = Js.Undefined) :
  onConnectionUpdate update p =
    {| completion := Normal tt;
       after := {| sock := sock p; awaiting := awaiting p ++ [fromCloseHandler] |};
       trace := [console_log "Connection closed. Reconnecting...";
                 call_startWhatsApp;
                 call_useMultiFileAuthState SESSION_FOLDER] |}.
Proof.
  assert (Hu : closeCode update = Js.Undefined).
  { destruct Hcode as [Hn|Hu]; [|exact Hu].
    unfold closeCode. apply errorCodeOf_nullish, Hn. }
  rewrite (onConnectionUpdate_close _ _ Hclose).
  unfold closeTrace, retried. rewrite Hu. reflexivity.
Qed.

Lemma close_without_code_reconnects_witness :
  establishCalls (trace (onConnectionUpdate closeBare (established delivering))) = 1
  /\ establishCalls
       (trace (onConnectionUpdate closeNoOutput (established delivering))) = 1.
Proof.
  split.
  - rewrite (close_without_code_reconnects closeBare (established delivering)
               eq_refl (or_introl eq_refl)).
    reflexivity.
  - rewrite (close_without_code_reconnects closeNoOutput (established delivering)
               eq_refl (or_intror eq_refl)).
    reflexivity.
Defined.

(** C1 (as the code has it): close events delivered to the socket that
    [startWhatsApp] set up are each handled at once and on their own.  The
    listener enters [startWhatsApp] once for every event whose code is not
    strictly equal to 401 and never for one whose code is 401, however many
    events there are; it does nothing but log and make those calls, and it
    leaves the connection handle in [sock] as it is. *)
Theorem reconnect_policy (lib : Library) (authState : Js.Val)
    (updates : list Js.Val) (p : Process)
    (Hclose : Forall (fun u => isClose u = true) updates) :
  let r := deliver (establishedSocket lib authState) updates p in
  completion r = Normal tt
  /\ establishCalls (trace r) = List.length (filter retried updates)
  /\ trace r = flat_map closeTrace updates
  /\ sock (after r) = sock p
  /\ (filter retried updates = [] -> after r = p).
Proof.
  intros r; subst r. rewrite (deliver_run _ _ _ Hclose). simpl.
  split; [reflexivity|]. split; [|split; [reflexivity|split; [reflexivity|]]].
  - clear Hclose. induction updates as [|u rest IH]; [reflexivity|].
    simpl. rewrite establishCalls_app, establishCalls_closeTrace, IH.
    destruct (retried u); reflexivity.
  - intros ->. simpl. rewrite app_nil_r. destruct p; reflexivity.
Qed.

Lemma reconnect_policy_witness :
  establishCalls
    (trace (deliver (establishedSocket delivering someCreds)
              [close428; close401; closeBare; close428]
              (established delivering))) = 3
  /\ after (deliver (establishedSocket delivering someCreds) [close401]
              (established delivering)) = established delivering.
Proof.
  split.
  - apply (reconnect_policy delivering someCreds
             [close428; close401; closeBare; close428] (established delivering)).
    repeat constructor.
  - apply (reconnect_policy delivering someCreds [close401] (established delivering)).
    + repeat constructor.
    + reflexivity.
Defined.

(** C1 fails as stated on its second part: after a 401 close nothing was
    re-established, but the handle is still in [sock], and with the state
    the library last reported on it ("close") [GET /status] answers
    "Connected". *)
Lemma unauthorized_close_keeps_status :
  let lib := rejecting (Js.Str "close") "Connection Closed" in
  let r := emit (establishedSocket lib someCreds) "connection.update" close401
             (established lib) in
  establishCalls (trace r) = 0
  /\ after r = established lib
  /\ trace (get_status (after r))
     = [respond 200 (Js.Obj [("status", Js.Str "Connected");
                             ("state", Js.Str "close")])].
Proof. repeat split. Qed.

(** ** Further properties of the send endpoints *)

(** The network call of one endpoint, with a socket in [sock]. *)
Ltac one_call lib s Hs :=
  unfold send, post_sendText, post_sendImage, post_sendVideo, post_sendAudio,
         post_sendDocument, post_sendLocation, post_sendContact,
         post_sendReaction, post_sendPoll, sock_sendMessage;
  run_monad; rewrite Hs; simpl;
  match goal with
  | |- context [sendMessage lib s ?t ?c] => destruct (sendMessage lib s t c)
  end; reflexivity.

Lemma or_truthy (v d : Js.Val) : Js.truthy v = true -> Js.or v d = v.
Proof. unfold Js.or; intros ->; reflexivity. Qed.

Lemma truthy_not_nullish (v : Js.Val) : Js.truthy v = true -> Js.nullish v = false.
Proof. destruct v; simpl; intros H; try reflexivity; discriminate. Qed.

Lemma or_not_nullish (v d : Js.Val) :
  Js.nullish d = false -> Js.nullish (Js.or v d) = false.
Proof.
  intros Hd. unfold Js.or. destruct (Js.truthy v) eqn:Hv; [|exact Hd].
  apply truthy_not_nullish, Hv.
Qed.

Lemma targetOf_truthy (body : Body) : Js.truthy (targetOf body) = true.
Proof.
  unfold targetOf, Js.or.
  destruct (Js.truthy (Js.lookup "jid" body)) eqn:H; [exact H|reflexivity].
Qed.

(** X1: an Image send forwards [{image: {url: imageUrl}, caption}] and an
    Audio send [{audio: {url: audioUrl}, mimetype}]; the caption is "" and
    the mimetype "audio/mpeg" when the request omits them, and the
    request's own value whenever that value is truthy. *)
Theorem image_audio_defaults (lib : Library) (body : Body) (p : Process)
    (s : Socket) (Hs : sock p = Some s) :
  (exists content,
      networkCalls (trace (send lib Image body p)) = [(s, targetOf body, content)]
      /\ Js.get content "image" = Js.Obj [("url", Js.lookup "imageUrl" body)]
      /\ (Js.lookup "caption" body = Js.Undefined ->
          Js.get content "caption" = Js.Str "")
      /\ (Js.truthy (Js.lookup "caption" body) = true ->
          Js.get content "caption" = Js.lookup "caption" body))
  /\ (exists content,
      networkCalls (trace (send lib Audio body p)) = [(s, targetOf body, content)]
      /\ Js.get content "audio" = Js.Obj [("url", Js.lookup "audioUrl" body)]
      /\ (Js.lookup "mimetype" body = Js.Undefined ->
          Js.get content "mimetype" = Js.Str "audio/mpeg")
      /\ (Js.truthy (Js.lookup "mimetype" body) = true ->
          Js.get content "mimetype" = Js.lookup "mimetype" body)).
Proof.
  split; eexists; (split; [one_call lib s Hs|]); simpl;
    (split; [reflexivity|]); split; intros H.
  - rewrite H; reflexivity.
  - apply or_truthy, H.
  - rewrite H; reflexivity.
  - apply or_truthy, H.
Qed.

Lemma image_audio_defaults_witness :
  (exists content,
      networkCalls (trace (send delivering Image [("imageUrl", Js.Str "x")]
                             (established delivering)))
        = [(establishedSocket delivering someCreds,
            targetOf [("imageUrl", Js.Str "x")], content)]
      /\ Js.get content "caption" = Js.Str "")
  /\ (exists content,
      networkCalls (trace (send delivering Audio
                             [("audioUrl", Js.Str "x"); ("mimetype", Js.Str "audio/ogg")]
                             (established delivering)))
        = [(establishedSocket delivering someCreds,
            targetOf [("audioUrl", Js.Str "x"); ("mimetype", Js.Str "audio/ogg")],
            content)]
      /\ Js.get content "mimetype" = Js.Str "audio/ogg").
Proof.
  split.
  - destruct (image_audio_defaults delivering [("imageUrl", Js.Str "x")]
                (established delivering) _ (established_sock delivering))
      as [(content & Hc & _ & Hd & _) _].
    exists content; split; [exact Hc | apply Hd; reflexivity].
  - destruct (image_audio_defaults delivering
                [("audioUrl", Js.Str "x"); ("mimetype", Js.Str "audio/ogg")]
                (established delivering) _ (established_sock delivering))
      as [_ (content & Hc & _ & _ & Hv)].
    exists content; split; [exact Hc | apply Hv; reflexivity].
Defined.

(** X2: a Location send forwards the request's [latitude] and [longitude]
    unchanged, under the names [degreesLatitude] and [degreesLongitude]
    (also when they are missing), and gives [name] and [address] the value
    "" when the request omits them. *)
Theorem location_content (lib : Library) (body : Body) (p : Process)
    (s : Socket) (Hs : sock p = Some s) :
  exists location,
    networkCalls (trace (send lib Location body p))
      = [(s, targetOf body, Js.Obj [("location", location)])]
    /\ Js.get location "degreesLatitude" = Js.lookup "latitude" body
    /\ Js.get location "degreesLongitude" = Js.lookup "longitude" body
    /\ (Js.lookup "name" body = Js.Undefined -> Js.get location "name" = Js.Str "")
    /\ (Js.lookup "address" body = Js.Undefined ->
        Js.get location "address" = Js.Str "")
    /\ (Js.truthy (Js.lookup "name" body) = true ->
        Js.get location "name" = Js.lookup "name" body)
    /\ (Js.truthy (Js.lookup "address" body) = true ->
        Js.get location "address" = Js.lookup "address" body).
Proof.
  eexists; split; [one_call lib s Hs|]; simpl.
  repeat (split; [try reflexivity; intros H; rewrite H; reflexivity|]).
  split; intros H; apply or_truthy, H.
Qed.

Lemma location_content_witness :
  exists location,
    networkCalls (trace (send delivering Location
                           [("latitude", Js.Num 6.5%float);
                            ("longitude", Js.Num 79.75%float)]
                           (established delivering)))
      = [(establishedSocket delivering someCreds, Js.Str DEFAULT_TARGET_JID,
          Js.Obj [("location", location)])]
    /\ Js.get location "degreesLatitude" = Js.Num 6.5%float
    /\ Js.get location "name" = Js.Str "".
Proof.
  destruct (location_content delivering
              [("latitude", Js.Num 6.5%float); ("longitude", Js.Num 79.75%float)]
              (established delivering) _ (established_sock delivering))
    as (location & Hc & Hlat & _ & Hname & _).
  exists location. split; [exact Hc|]. split; [exact Hlat|].
  apply Hname; reflexivity.
Defined.

(** X3: a Poll send forwards [pollName], [pollValues] and [selectableCount]
    unchanged as [name], [values] and [selectableCount] of the poll:
    [selectableCount] has no default and goes out undefined when the
    request omits it, while [toAnnouncementGroup] is [false] when
    omitted. *)
Theorem poll_content (lib : Library) (body : Body) (p : Process)
    (s : Socket) (Hs : sock p = Some s) :
  exists poll,
    networkCalls (trace (send lib Poll body p))
      = [(s, targetOf body, Js.Obj [("poll", poll)])]
    /\ Js.get poll "name" = Js.lookup "pollName" body
    /\ Js.get poll "values" = Js.lookup "pollValues" body
    /\ Js.get poll "selectableCount" = Js.lookup "selectableCount" body
    /\ (Js.lookup "toAnnouncementGroup" body = Js.Undefined ->
        Js.get poll "toAnnouncementGroup" = Js.Bool false)
    /\ (Js.truthy (Js.lookup "toAnnouncementGroup" body) = true ->
        Js.get poll "toAnnouncementGroup" = Js.lookup "toAnnouncementGroup" body).
Proof.
  eexists; split; [one_call lib s Hs|]; simpl.
  repeat (split; [try reflexivity; intros H; rewrite H; reflexivity|]).
  intros H; apply or_truthy, H.
Qed.

Lemma poll_content_witness :
  exists poll,
    networkCalls (trace (send delivering Poll
                           [("pollName", Js.Str "Lunch?");
                            ("pollValues", Js.Arr [Js.Str "yes"; Js.Str "no"])]
                           (established delivering)))
      = [(establishedSocket delivering someCreds, Js.Str DEFAULT_TARGET_JID,
          Js.Obj [("poll", poll)])]
    /\ Js.get poll "selectableCount" = Js.Undefined
    /\ Js.get poll "toAnnouncementGroup" = Js.Bool false.
Proof.
  destruct (poll_content delivering
              [("pollName", Js.Str "Lunch?");
               ("pollValues", Js.Arr [Js.Str "yes"; Js.Str "no"])]
              (established delivering) _ (established_sock delivering))
    as (poll & Hc & _ & _ & Hsel & Hdef & _).
  exists poll. split; [exact Hc|]. split; [exact Hsel|].
  apply Hdef; reflexivity.
Defined.

(** X4: Text and Reaction sends do no defaulting and no validation: the
    content is [{text}] and [{react: {text: reaction, key}}] with whatever
    the request holds under those names, undefined included. *)
Theorem text_reaction_content (lib : Library) (body : Body) (p : Process)
    (s : Socket) (Hs : sock p = Some s) :
  networkCalls (trace (send lib Text body p))
    = [(s, targetOf body, Js.Obj [("text", Js.lookup "text" body)])]
  /\ networkCalls (trace (send lib Reaction body p))
    = [(s, targetOf body,
        Js.Obj [("react", Js.Obj [("text", Js.lookup "reaction" body);
                                  ("key", Js.lookup "key" body)])])].
Proof. split; one_call lib s Hs. Qed.

Lemma text_reaction_content_witness :
  networkCalls (trace (send delivering Text [] (established delivering)))
    = [(establishedSocket delivering someCreds, Js.Str DEFAULT_TARGET_JID,
        Js.Obj [("text", Js.Undefined)])].
Proof.
  apply (text_reaction_content delivering [] (established delivering) _
           (established_sock delivering)).
Defined.

(** X5: whatever the request holds, a field written as [x || default] never
    goes out undefined or null: this holds for the caption, playback,
    mimetype, file name, name, address and announcement-group fields of
    every content that reaches the network. *)
Theorem defaulted_fields_never_nullish (lib : Library) (k : Kind) (body : Body)
    (p : Process) (s : Socket) (target content : Js.Val)
    (Hcall : In (s, target, content) (networkCalls (trace (send lib k body p)))) :
  Forall (fun v => Js.nullish v = false) (defaultedValues k content).
Proof.
  assert (Hsock : exists s', sock p = Some s').
  { destruct (sock p) as [s'|] eqn:Hs; [exists s'; reflexivity|].
    destruct (send_run lib k body p) as (c & sent & errLabel & Hrun).
    rewrite Hrun in Hcall. unfold sendRun in Hcall. rewrite Hs in Hcall.
    destruct Hcall. }
  destruct Hsock as [s' Hs].
  destruct k;
    match goal with
    | |- Forall _ (defaultedValues ?k _) =>
        assert (Hc : exists c, networkCalls (trace (send lib k body p))
                               = [(s', targetOf body, c)]
                     /\ Forall (fun v => Js.nullish v = false) (defaultedValues k c))
    end;
    try (eexists; split; [one_call lib s' Hs|]; simpl;
         repeat constructor; apply or_not_nullish; reflexivity);
    destruct Hc as (c & Hc & Hall); rewrite Hc in Hcall;
    destruct Hcall as [Heq|[]]; inversion Heq; subst; exact Hall.
Qed.

Lemma defaulted_fields_never_nullish_witness :
  Forall (fun v => Js.nullish v = false)
    (defaultedValues Video
       (Js.Obj [("video", Js.Obj [("url", Js.Str "x")]);
                ("caption", Js.Str "");
                ("gifPlayback", Js.Bool false)])).
Proof.
  apply (defaulted_fields_never_nullish delivering Video
           [("videoUrl", Js.Str "x"); ("caption", Js.Null)]
           (established delivering)
           (establishedSocket delivering someCreds) (Js.Str DEFAULT_TARGET_JID)).
  left; reflexivity.
Defined.

(** X6: the recipient handed to [sendMessage] is never undefined, null or
    empty; it is a string whenever the request's [jid] is a string or is
    missing. *)
Theorem target_always_truthy (lib : Library) (k : Kind) (body : Body)
    (p : Process) (s : Socket) (Hs : sock p = Some s) :
  exists target,
    recipients (trace (send lib k body p)) = [target]
    /\ Js.truthy target = true
    /\ ((Js.lookup "jid" body = Js.Undefined
         \/ exists str, Js.lookup "jid" body = Js.Str str) ->
        exists str, target = Js.Str str).
Proof.
  destruct (send_run lib k body p) as (content & sent & errLabel & ->).
  exists (targetOf body). split; [|split].
  - unfold sendRun; rewrite Hs.
    destruct (sendMessage lib s (targetOf body) content); reflexivity.
  - apply targetOf_truthy.
  - unfold targetOf, Js.or. intros [->|[str ->]]; simpl.
    + eexists; reflexivity.
    + destruct (negb (str =? "")); eexists; reflexivity.
Qed.

Lemma target_always_truthy_witness :
  exists target,
    recipients (trace (send delivering Poll [("jid", Js.Str "")]
                         (established delivering))) = [target]
    /\ Js.truthy target = true.
Proof.
  destruct (target_always_truthy delivering Poll [("jid", Js.Str "")]
              (established delivering) _ (established_sock delivering))
    as (target & Hr & Ht & _).
  exists target; split; assumption.
Defined.

(** X7: a send endpoint reads nothing of the request but [jid] and its own
    fields: two requests that agree on those run identically, whatever else
    they carry. *)
Theorem send_reads_only_its_fields (lib : Library) (k : Kind) (b1 b2 : Body)
    (p : Process)
    (Hagree : forall f, In f ("jid" :: fieldsOf k) -> Js.lookup f b1 = Js.lookup f b2) :
  send lib k b1 p = send lib k b2 p.
Proof.
  destruct k; unfold send, post_sendText, post_sendImage, post_sendVideo,
    post_sendAudio, post_sendDocument, post_sendLocation, post_sendContact,
    post_sendReaction, post_sendPoll;
    repeat match goal with
           | |- context [Js.lookup ?f b1] =>
               rewrite (Hagree f) by (simpl; auto 10)
           end;
    reflexivity.
Qed.

Lemma send_reads_only_its_fields_witness :
  send delivering Text [("text", Js.Str "hi")] (established delivering)
  = send delivering Text
      [("caption", Js.Str "ignored"); ("text", Js.Str "hi"); ("vcard", Js.Null)]
      (established delivering).
Proof.
  apply send_reads_only_its_fields.
  intros f [<-|[<-|[]]]; reflexivity.
Defined.

(** X8: a send endpoint writes to the error console exactly when it answers
    500, once, and the error it logs is the one whose message it returns;
    a successful send logs nothing. *)
Theorem failure_logged_once (lib : Library) (k : Kind) (body : Body) (p : Process) :
  (consoleErrors (trace (send lib k body p)) = []
   /\ exists ok, responses (trace (send lib k body p)) = [(200, ok)])
  \/ (exists label e,
        consoleErrors (trace (send lib k body p)) = [(label, e)]
        /\ responses (trace (send lib k body p))
           = [(500, Js.Obj [("error", Js.Str (message e))])]).
Proof.
  destruct (send_run lib k body p) as (content & sent & errLabel & ->).
  unfold sendRun. destruct (sock p) as [s|].
  - destruct (sendMessage lib s (targetOf body) content) as [e|].
    + right; exists errLabel, e; split; reflexivity.
    + left; split; [reflexivity|eexists; reflexivity].
  - right; exists errLabel, (undefinedHas "sendMessage"); split; reflexivity.
Qed.

(** ** Further properties of the listeners *)

(** X9: only a close event makes the [connection.update] listener act on
    the process.  On any other update it leaves the process as it is and
    never calls [startWhatsApp]: it logs on "open", does nothing at all on
    anything else, and throws before doing anything when the update is
    undefined or null. *)
Theorem non_close_update_is_inert (update : Js.Val) (p : Process)
    (Hother : isClose update = false) :
  onConnectionUpdate update p =
    {| completion := if Js.nullish update
                     then Throw (cannotDestructure "connection" update)
                     else Normal tt;
       after := p;
       trace := if Js.strictEqStr (Js.get update "connection") "open"
                then [console_log "Connected to WhatsApp!"]
                else [] |}.
Proof.
  unfold onConnectionUpdate. unfold isClose in Hother. rewrite Hother.
  destruct update; simpl; try reflexivity.
  destruct (Js.strictEqStr (Js.lookup "connection" fields) "open"); reflexivity.
Qed.

Lemma non_close_update_is_inert_witness :
  trace (onConnectionUpdate (Js.Obj [("connection", Js.Str "open")])
           (established delivering))
    = [console_log "Connected to WhatsApp!"]
  /\ trace (onConnectionUpdate (Js.Obj [("qr", Js.Str "2@abc")])
              (established delivering)) = [].
Proof.
  split.
  - rewrite (non_close_update_is_inert (Js.Obj [("connection", Js.Str "open")])
               (established delivering) eq_refl).
    reflexivity.
  - rewrite (non_close_update_is_inert (Js.Obj [("qr", Js.Str "2@abc")])
               (established delivering) eq_refl).
    reflexivity.
Defined.

(** X10: on a close event the listener gives up reconnecting exactly when
    the status code is a number equal to 401; a code of any other type
    (the string "401", null, an object) or any other number is retried. *)
Theorem only_numeric_401_stops (lib : Library) (authState update : Js.Val)
    (p : Process) (Hclose : isClose update = true) :
  establishCalls
    (trace (emit (establishedSocket lib authState) "connection.update" update p)) = 0
  <-> exists x, closeCode update = Js.Num x /\ PrimFloat.eqb x 401%float = true.
Proof.
  rewrite (emit_close _ _ _ _ Hclose). simpl.
  rewrite establishCalls_closeTrace, <- retried_false_iff.
  destruct (retried update); split; intros H; try reflexivity; discriminate.
Qed.

Lemma only_numeric_401_stops_witness :
  establishCalls
    (trace (emit (establishedSocket delivering someCreds) "connection.update"
              close401 (established delivering))) = 0
  /\ establishCalls
       (trace (emit (establishedSocket delivering someCreds) "connection.update"
                 (closeWith (Js.Str "401")) (established delivering))) <> 0.
Proof.
  split.
  - apply (only_numeric_401_stops delivering someCreds close401
             (established delivering) eq_refl).
    exists 401%float. split; reflexivity.
  - intros H.
    apply (only_numeric_401_stops delivering someCreds (closeWith (Js.Str "401"))
             (established delivering) eq_refl) in H.
    destruct H as (x & Hx & _). discriminate Hx.
Defined.

(** X11: on a socket set up by [startWhatsApp], an event other than
    [connection.update] never touches the process: [creds.update] calls
    [saveCreds] once with the update and nothing else, and every other
    event name runs no code of the program. *)
Theorem other_events_only_save (lib : Library) (authState : Js.Val)
    (name : string) (arg : Js.Val) (p : Process)
    (Hname : String.eqb name "connection.update" = false) :
  emit (establishedSocket lib authState) name arg p =
    {| completion := Normal tt; after := p;
       trace := if String.eqb name "creds.update"
                then [call_saveCreds SESSION_FOLDER arg]
                else [] |}.
Proof.
  unfold emit. rewrite establishedSocket_listeners. cbn [emitTo].
  rewrite (String.eqb_sym "connection.update" name), Hname.
  rewrite (String.eqb_sym "creds.update" name).
  destruct (String.eqb name "creds.update"); reflexivity.
Qed.

Lemma other_events_only_save_witness :
  trace (emit (establishedSocket delivering someCreds) "creds.update"
           (Js.Obj [("me", Js.Str "x")]) (established delivering))
    = [call_saveCreds SESSION_FOLDER (Js.Obj [("me", Js.Str "x")])]
  /\ trace (emit (establishedSocket delivering someCreds) "messages.upsert"
              Js.Null (established delivering)) = [].
Proof.
  split.
  - rewrite (other_events_only_save delivering someCreds "creds.update"
               (Js.Obj [("me", Js.Str "x")]) (established delivering) eq_refl).
    reflexivity.
  - rewrite (other_events_only_save delivering someCreds "messages.upsert"
               Js.Null (established delivering) eq_refl).
    reflexivity.
Defined.

Lemma reconnect_replaces_socket_witness :
  sock (after (authStateLoaded delivering (Js.Str "reloaded")
                 (after (emit (establishedSocket delivering someCreds)
                           "connection.update" close428 (established delivering)))))
    = Some (establishedSocket delivering (Js.Str "reloaded")).
Proof.
  rewrite (reconnect_replaces_socket delivering someCreds (Js.Str "reloaded")
             close428 (established delivering) eq_refl eq_refl eq_refl).
  reflexivity.
Defined.

(** X13: a send always goes to the socket that is in [sock] at that moment:
    between a retried close and the arrival of the reloaded authentication
    state that is still the old socket, afterwards it is the new one. *)
Theorem sends_follow_the_handle (lib : Library) (k : Kind) (body : Body)
    (authState authState' update : Js.Val) (p : Process) (s : Socket)
    (Hs : sock p = Some s) (Hclose : isClose update = true)
    (Hretried : retried update = true) (Hidle : awaiting p = []) :
  let closed := after (emit (establishedSocket lib authState)
                         "connection.update" update p) in
  let reloaded := after (authStateLoaded lib authState' closed) in
  (exists content,
      networkCalls (trace (send lib k body closed)) = [(s, targetOf body, content)])
  /\ (exists content,
      networkCalls (trace (send lib k body reloaded))
        = [(establishedSocket lib authState', targetOf body, content)]).
Proof.
  intros closed reloaded.
  assert (Hcall : forall q s', sock q = Some s' ->
            exists content,
              networkCalls (trace (send lib k body q)) = [(s', targetOf body, content)]).
  { intros q s' Hq.
    destruct (send_run lib k body q) as (content & sent & errLabel & ->).
    exists content. unfold sendRun. rewrite Hq.
    destruct (sendMessage lib s' (targetOf body) content); reflexivity. }
  split; apply Hcall.
  - subst closed. rewrite (emit_close _ _ _ _ Hclose), Hretried. exact Hs.
  - subst reloaded closed. rewrite (emit_close _ _ _ _ Hclose), Hretried. simpl.
    unfold authStateLoaded; run_monad. rewrite Hidle. reflexivity.
Qed.

Lemma sends_follow_the_handle_witness :
  exists content,
    networkCalls
      (trace (send delivering Text [("text", Js.Str "hi")]
                (after (emit (establishedSocket delivering someCreds)
                          "connection.update" closeBare (established delivering)))))
    = [(establishedSocket delivering someCreds,
        targetOf [("text", Js.Str "hi")], content)].
Proof.
  apply (sends_follow_the_handle delivering Text [("text", Js.Str "hi")]
           someCreds Js.Null closeBare (established delivering) _
           (established_sock delivering) eq_refl eq_refl eq_refl).
Defined.

(** ** The event loop *)

Lemma listenCalls_app (t u : list Effect) :
  listenCalls (t ++ u) = listenCalls t + listenCalls u.
Proof.
  induction t as [|e t IH]; [reflexivity|].
  destruct e; simpl; rewrite IH; reflexivity.
Qed.

Lemma networkCalls_app (t u : list Effect) :
  networkCalls (t ++ u) = (networkCalls t ++ networkCalls u)%list.
Proof.
  induction t as [|e t IH]; [reflexivity|].
  destruct e; simpl; rewrite IH; reflexivity.
Qed.

Lemma waitingStartService_closes (callers : list Caller) (n : nat) :
  waitingStartService (callers ++ repeat fromCloseHandler n)
  = waitingStartService callers.
Proof.
  induction callers as [|c callers IH]; simpl.
  - induction n as [|n IHn]; [reflexivity|exact IHn].
  - destruct c; rewrite IH; reflexivity.
Qed.

(** Whatever the update, the listener leaves [sock] alone, adds at most one
    suspended call and never starts the HTTP server. *)
Lemma onConnectionUpdate_shape (update : Js.Val) (p : Process) :
  exists n,
    n <= 1
    /\ after (onConnectionUpdate update p)
       = {| sock := sock p; awaiting := awaiting p ++ repeat fromCloseHandler n |}
    /\ establishCalls (trace (onConnectionUpdate update p)) = n
    /\ listenCalls (trace (onConnectionUpdate update p)) = 0.
Proof.
  unfold onConnectionUpdate, startWhatsApp.
  destruct (Js.nullish update);
    [exists 0
    |destruct (Js.strictEqStr (Js.get update "connection") "close");
      [destruct (Js.strictNeqNum _ _); [exists 1|exists 0]
      |destruct (Js.strictEqStr (Js.get update "connection") "open"); exists 0]];
    run_monad; rewrite ?app_nil_r; destruct p; repeat split; auto.
Qed.

(** The same for any event emitted on a socket set up by [startWhatsApp]. *)
Lemma emit_established_shape (lib : Library) (authState : Js.Val)
    (name : string) (arg : Js.Val) (p : Process) :
  exists n,
    n <= 1
    /\ after (emit (establishedSocket lib authState) name arg p)
       = {| sock := sock p; awaiting := awaiting p ++ repeat fromCloseHandler n |}
    /\ establishCalls (trace (emit (establishedSocket lib authState) name arg p)) = n
    /\ listenCalls (trace (emit (establishedSocket lib authState) name arg p)) = 0.
Proof.
  unfold emit. rewrite establishedSocket_listeners. cbn [emitTo].
  destruct (String.eqb "connection.update" name) eqn:Hconn.
  - apply String.eqb_eq in Hconn. subst name. simpl.
    destruct (onConnectionUpdate_shape arg p) as (n & Hn & Ha & He & Hl).
    exists n. unfold bind, ret. simpl.
    set (r := onConnectionUpdate arg p) in *. clearbody r.
    destruct r as [c af tr]. simpl in *. subst af.
    destruct c; simpl; rewrite ?app_nil_r; repeat split; assumption.
  - exists 0.
    destruct (String.eqb "creds.update" name); run_monad;
      rewrite ?app_nil_r; destruct p; repeat split; auto.
Qed.

Lemma authStateLoaded_run (lib : Library) (authState : Js.Val) (p : Process)
    (who : Caller) (rest : list Caller) :
  awaiting p = who :: rest ->
  authStateLoaded lib authState p =
    {| completion := Normal tt;
       after := {| sock := Some (establishedSocket lib authState); awaiting := rest |};
       trace := match who with
                | fromStartService =>
                    [listen PORT; console_log "Master service running on port 3000"]
                | fromCloseHandler => []
                end |}.
Proof.
  intros Ha. unfold authStateLoaded; run_monad. rewrite Ha.
  destruct who; reflexivity.
Qed.

(** A request handler changes nothing in the process, calls neither
    [startWhatsApp] nor [app.listen]. *)
Lemma send_quiet (lib : Library) (k : Kind) (body : Body) (p : Process) :
  after (send lib k body p) = p
  /\ establishCalls (trace (send lib k body p)) = 0
  /\ listenCalls (trace (send lib k body p)) = 0.
Proof.
  destruct (send_run lib k body p) as (content & sent & errLabel & ->).
  unfold sendRun. destruct (sock p) as [s|];
    [destruct (sendMessage lib s (targetOf body) content)|]; repeat split.
Qed.

Lemma get_status_quiet (p : Process) :
  after (get_status p) = p
  /\ establishCalls (trace (get_status p)) = 0
  /\ listenCalls (trace (get_status p)) = 0.
Proof.
  unfold get_status; run_monad.
  destruct (Js.truthy (sockAndState p)); repeat split.
Qed.

Lemma booted_Sound (lib : Library) : Sound lib booted.
Proof. unfold Sound; simpl. repeat split; auto. Qed.

Lemma quiet_Sound (lib : Library) (m : M unit) (w : World) :
  after (m (proc w)) = proc w ->
  establishCalls (trace (m (proc w))) = 0 ->
  listenCalls (trace (m (proc w))) = 0 ->
  Sound lib w -> Sound lib (perform m w).
Proof.
  intros Ha He Hl (Hs & Hk & Hw & Hle & Hb). unfold Sound, perform; simpl.
  rewrite Ha, listenCalls_app, establishCalls_app, He, Hl, !Nat.add_0_r.
  repeat split; assumption.
Qed.

Lemma step_Sound (lib : Library) (i : Input) (w : World) :
  Sound lib w -> Sound lib (step lib i w).
Proof.
  intros HS. destruct i as [authState|socketNo name arg| |k body]; cbn [step].
  - destruct (awaiting (proc w)) as [|who rest] eqn:Ha; [exact HS|].
    destruct HS as (Hs & Hk & Hw & Hle & Hb).
    unfold perform; cbn [proc history sockets].
    rewrite (authStateLoaded_run lib authState _ who rest Ha).
    unfold Sound; simpl.
    rewrite listenCalls_app, establishCalls_app, rev_app_distr, List.length_app.
    rewrite Ha in Hw, Hb. simpl in *.
    repeat split.
    + apply Forall_app; split; [exact Hs|].
      constructor; [exists authState; reflexivity|constructor].
    + destruct who; simpl in *; lia.
    + destruct who; simpl in *; lia.
    + destruct who; simpl in *; lia.
  - destruct (nth_error (sockets w) socketNo) as [s|] eqn:Hn; [|exact HS].
    destruct HS as (Hs & Hk & Hw & Hle & Hb).
    apply nth_error_In in Hn.
    rewrite Forall_forall in Hs. destruct (Hs s Hn) as [authState ->].
    destruct (emit_established_shape lib authState name arg (proc w))
      as (n & Hn1 & Hafter & He & Hl).
    unfold Sound, perform; simpl.
    rewrite Hafter, listenCalls_app, establishCalls_app, He, Hl; simpl.
    rewrite waitingStartService_closes, List.length_app, repeat_length.
    repeat split; try lia; try assumption.
    apply Forall_forall; exact Hs.
  - destruct (listening w); [|exact HS].
    destruct (get_status_quiet (proc w)) as (Ha & He & Hl).
    apply quiet_Sound; assumption.
  - destruct (listening w); [|exact HS].
    destruct (send_quiet lib k body (proc w)) as (Ha & He & Hl).
    apply quiet_Sound; assumption.
Qed.

Lemma runInputs_Sound (lib : Library) (inputs : list Input) (w : World) :
  Sound lib w -> Sound lib (runInputs lib inputs w).
Proof.
  revert w. induction inputs as [|i inputs IH]; intros w HS; [exact HS|].
  simpl. apply IH, step_Sound, HS.
Qed.

Lemma Sound_sock (lib : Library) (w : World) :
  Sound lib w -> listening w = true ->
  exists authState, sock (proc w) = Some (establishedSocket lib authState).
Proof.
  intros (Hs & Hk & _ & Hle & _) Hl. unfold listening in Hl.
  destruct (listenCalls (history w)) as [|n] eqn:Hn; [discriminate|].
  rewrite Hk. rewrite Forall_forall in Hs.
  destruct (rev (sockets w)) as [|s rest] eqn:Hr.
  - apply (f_equal (@List.length Socket)) in Hr.
    rewrite List.length_rev in Hr. simpl in Hr. lia.
  - destruct (Hs s) as [authState ->]; [|exists authState; reflexivity].
    apply in_rev. rewrite Hr. left; reflexivity.
Qed.

(** X14: the HTTP server only answers once a socket is in [sock].  In every
    world the event loop can reach, a send request that is served makes
    exactly one network call, on the newest socket; the no-socket failure
    cannot happen to a served request. *)
Theorem served_send_reaches_network (lib : Library) (inputs : list Input)
    (k : Kind) (body : Body)
    (Hserved : listening (runInputs lib inputs booted) = true) :
  exists authState content,
    sock (proc (runInputs lib inputs booted))
      = Some (establishedSocket lib authState)
    /\ networkCalls (history (step lib (POST_send k body)
                                (runInputs lib inputs booted)))
       = (networkCalls (history (runInputs lib inputs booted))
          ++ [(establishedSocket lib authState, targetOf body, content)])%list.
Proof.
  set (w := runInputs lib inputs booted) in *.
  destruct (Sound_sock lib w (runInputs_Sound lib inputs booted (booted_Sound lib))
              Hserved) as [authState Hs].
  destruct (send_run lib k body (proc w)) as (content & sent & errLabel & Hrun).
  exists authState, content. split; [exact Hs|].
  cbn [step]. rewrite Hserved. unfold perform; cbn [history].
  rewrite networkCalls_app, Hrun. unfold sendRun. rewrite Hs.
  destruct (sendMessage lib _ (targetOf body) content); reflexivity.
Qed.

Lemma served_send_reaches_network_witness :
  exists authState content,
    sock (proc (runInputs delivering [authState_ready someCreds] booted))
      = Some (establishedSocket delivering authState)
    /\ networkCalls
         (history (step delivering (POST_send Text [("text", Js.Str "hi")])
                     (runInputs delivering [authState_ready someCreds] booted)))
       = (networkCalls
            (history (runInputs delivering [authState_ready someCreds] booted))
          ++ [(establishedSocket delivering authState,
               targetOf [("text", Js.Str "hi")], content)])%list.
Proof.
  apply (served_send_reaches_network delivering [authState_ready someCreds]
           Text [("text", Js.Str "hi")]).
  reflexivity.
Defined.

(** X15: whatever happens, [app.listen] runs at most once, and it has run
    exactly when [startService] is no longer waiting for its
    [startWhatsApp]; reconnects never start the server again. *)
Theorem listen_at_most_once (lib : Library) (inputs : list Input) :
  listenCalls (history (runInputs lib inputs booted)) <= 1
  /\ (listenCalls (history (runInputs lib inputs booted)) = 1
      <-> waitingStartService (awaiting (proc (runInputs lib inputs booted))) = 0).
Proof.
  destruct (runInputs_Sound lib inputs booted (booted_Sound lib))
    as (_ & _ & Hw & _ & _).
  split; [|split; intros H]; lia.
Qed.

(** X16: every socket the process ever makes carries the credential
    listener and the connection listener exactly once each, in that order,
    and [sock] is always the newest socket made ([undefined] before the
    first). *)
Theorem sockets_listen_once (lib : Library) (inputs : list Input) :
  (forall s, In s (sockets (runInputs lib inputs booted)) ->
     ev s = [("creds.update", saveCreds SESSION_FOLDER);
             ("connection.update", connectionUpdateHandler)])
  /\ sock (proc (runInputs lib inputs booted))
     = nth_error (rev (sockets (runInputs lib inputs booted))) 0.
Proof.
  destruct (runInputs_Sound lib inputs booted (booted_Sound lib))
    as (Hs & Hk & _ & _ & _).
  split; [|exact Hk].
  intros s Hin. rewrite Forall_forall in Hs.
  destruct (Hs s Hin) as [authState ->]. reflexivity.
Qed.

(** X17: no call of [startWhatsApp] is lost or doubled: at any time the
    calls made so far are the ones still suspended at their [await] plus
    one per socket made. *)
Theorem establish_calls_balance (lib : Library) (inputs : list Input) :
  establishCalls (history (runInputs lib inputs booted))
  = List.length (awaiting (proc (runInputs lib inputs booted)))
    + List.length (sockets (runInputs lib inputs booted)).
Proof.
  destruct (runInputs_Sound lib inputs booted (booted_Sound lib))
    as (_ & _ & _ & _ & Hb).
  exact Hb.
Qed.

Lemma step_keeps_sock (lib : Library) (i : Input) (w : World) :
  Sound lib w -> isAuthStateReady i = false ->
  sock (proc (step lib i w)) = sock (proc w).
Proof.
  intros HS Hi. destruct i as [authState|socketNo name arg| |k body];
    [discriminate| | |]; cbn [step].
  - destruct (nth_error (sockets w) socketNo) as [s|] eqn:Hn; [|reflexivity].
    destruct HS as (Hs & _). apply nth_error_In in Hn.
    rewrite Forall_forall in Hs. destruct (Hs s Hn) as [authState ->].
    destruct (emit_established_shape lib authState name arg (proc w))
      as (n & _ & Hafter & _).
    unfold perform; cbn [proc]. rewrite Hafter. reflexivity.
  - destruct (listening w); [|reflexivity].
    unfold perform; cbn [proc].
    destruct (get_status_quiet (proc w)) as (-> & _). reflexivity.
  - destruct (listening w); [|reflexivity].
    unfold perform; cbn [proc].
    destruct (send_quiet lib k body (proc w)) as (-> & _). reflexivity.
Qed.

(** X18: only the arrival of a loaded authentication state changes [sock].
    No event the library emits (a 401 close included) and no HTTP request
    clears or replaces the handle. *)
Theorem only_loaded_state_changes_sock (lib : Library) (before inputs : list Input)
    (Hnone : forallb (fun i => negb (isAuthStateReady i)) inputs = true) :
  sock (proc (runInputs lib inputs (runInputs lib before booted)))
  = sock (proc (runInputs lib before booted)).
Proof.
  assert (HS : Sound lib (runInputs lib before booted))
    by apply runInputs_Sound, booted_Sound.
  revert HS. generalize (runInputs lib before booted) as w.
  induction inputs as [|i inputs IH]; intros w HS; [reflexivity|].
  simpl in Hnone. apply andb_prop in Hnone as [Hi Hrest].
  apply negb_true_iff in Hi.
  simpl. rewrite (IH Hrest _ (step_Sound lib i w HS)).
  apply step_keeps_sock; assumption.
Qed.

Lemma only_loaded_state_changes_sock_witness :
  sock (proc (runInputs delivering
                [emitted 0 "connection.update" close401;
                 emitted 0 "connection.update" close428;
                 POST_send Text []; GET_status]
                (runInputs delivering [authState_ready someCreds] booted)))
  = Some (establishedSocket delivering someCreds).
Proof.
  rewrite (only_loaded_state_changes_sock delivering [authState_ready someCreds]
             [emitted 0 "connection.update" close401;
              emitted 0 "connection.update" close428;
              POST_send Text []; GET_status] eq_refl).
  reflexivity.
Defined.

Lemma runInputs_cons (lib : Library) (i : Input) (rest : list Input) (w : World) :
  runInputs lib (i :: rest) w = runInputs lib rest (step lib i w).
Proof. reflexivity. Qed.

(** Retried closes delivered one after the other only pile up suspended
    calls. *)
Lemma closes_pile_up (lib : Library) (authState : Js.Val) (socketNo : nat)
    (updates : list Js.Val) :
  Forall (fun u => isClose u = true /\ retried u = true) updates ->
  forall w,
    nth_error (sockets w) socketNo = Some (establishedSocket lib authState) ->
    sockets (runInputs lib (map (emitted socketNo "connection.update") updates) w)
      = sockets w
    /\ awaiting (proc (runInputs lib
                         (map (emitted socketNo "connection.update") updates) w))
       = (awaiting (proc w) ++ repeat fromCloseHandler (List.length updates))%list.
Proof.
  induction 1 as [|u rest [Hc Hr] _ IH]; intros w Hn.
  - simpl. rewrite app_nil_r. split; reflexivity.
  - rewrite map_cons, runInputs_cons.
    set (w' := step lib (emitted socketNo "connection.update" u) w).
    assert (Hw' : sockets w' = sockets w
                  /\ awaiting (proc w')
                     = (awaiting (proc w) ++ [fromCloseHandler])%list).
    { subst w'. cbn [step]. rewrite Hn. unfold perform; cbn [proc sockets].
      rewrite (emit_close _ _ _ _ Hc), Hr. split; reflexivity. }
    destruct Hw' as [Hs Ha].
    destruct (IH w') as [Hs' Ha']; [rewrite Hs; exact Hn|].
    rewrite Hs', Ha', Hs, Ha, <- app_assoc.
    split; reflexivity.
Qed.

(** Each loaded state then resumes one of them and makes one socket. *)
Lemma loads_make_sockets (lib : Library) (auths : list Js.Val) :
  forall w,
    awaiting (proc w) = repeat fromCloseHandler (List.length auths) ->
    sockets (runInputs lib (map authState_ready auths) w)
      = (sockets w ++ map (establishedSocket lib) auths)%list
    /\ awaiting (proc (runInputs lib (map authState_ready auths) w)) = [].
Proof.
  induction auths as [|a auths IH]; intros w Ha.
  - simpl. rewrite app_nil_r. split; [reflexivity|exact Ha].
  - rewrite map_cons, runInputs_cons.
    set (w' := step lib (authState_ready a) w).
    assert (Hw' : sockets w' = (sockets w ++ [establishedSocket lib a])%list
                  /\ awaiting (proc w') = repeat fromCloseHandler (List.length auths)).
    { subst w'. cbn [step]. simpl in Ha. rewrite Ha.
      unfold perform; cbn [proc sockets history].
      rewrite (authStateLoaded_run lib a _ _ _ Ha). split; reflexivity. }
    destruct Hw' as [Hs Hq].
    destruct (IH w' Hq) as [Hs' Hq'].
    rewrite Hs', Hq', Hs, <- app_assoc.
    split; reflexivity.
Qed.

(** X19: nothing guards against overlapping reconnects.  When n retried
    close events arrive before any reloaded authentication state, n calls
    of [startWhatsApp] are suspended together, and the n states that then
    arrive make n sockets, one after the other. *)
Theorem overlapping_reconnects (lib : Library) (before : list Input)
    (socketNo : nat) (updates auths : list Js.Val)
    (Hidle : awaiting (proc (runInputs lib before booted)) = [])
    (Hsocket : socketNo < List.length (sockets (runInputs lib before booted)))
    (Hcloses : Forall (fun u => isClose u = true /\ retried u = true) updates)
    (Hauths : List.length auths = List.length updates) :
  let w := runInputs lib before booted in
  let closed := runInputs lib (map (emitted socketNo "connection.update") updates) w in
  let reloaded := runInputs lib (map authState_ready auths) closed in
  List.length (awaiting (proc closed)) = List.length updates
  /\ sockets closed = sockets w
  /\ sockets reloaded = (sockets w ++ map (establishedSocket lib) auths)%list
  /\ awaiting (proc reloaded) = [].
Proof.
  intros w closed reloaded.
  assert (HS : Sound lib w) by apply runInputs_Sound, booted_Sound.
  destruct (nth_error (sockets w) socketNo) as [s|] eqn:Hn;
    [|apply nth_error_None in Hn; subst w; lia].
  destruct HS as (Hs & _). rewrite Forall_forall in Hs.
  destruct (Hs s (nth_error_In _ _ Hn)) as [authState ->].
  destruct (closes_pile_up lib authState socketNo updates Hcloses w Hn)
    as [Hcs Hca].
  fold closed in Hcs, Hca. subst w. rewrite Hidle in Hca. simpl in Hca.
  destruct (loads_make_sockets lib auths closed) as [Hls Hla];
    [rewrite Hca, Hauths; reflexivity|].
  fold reloaded in Hls, Hla.
  rewrite Hca, repeat_length, Hls, Hcs.
  repeat split; try reflexivity; assumption.
Qed.

Lemma overlapping_reconnects_witness :
  sockets (runInputs delivering
             [authState_ready (Js.Str "a"); authState_ready (Js.Str "b")]
             (runInputs delivering
                [emitted 0 "connection.update" close428;
                 emitted 0 "connection.update" closeBare]
                (runInputs delivering [authState_ready someCreds] booted)))
  = [establishedSocket delivering someCreds;
     establishedSocket delivering (Js.Str "a");
     establishedSocket delivering (Js.Str "b")].
Proof.
  apply (overlapping_reconnects delivering [authState_ready someCreds] 0
           [close428; closeBare] [Js.Str "a"; Js.Str "b"] eq_refl).
  - simpl; lia.
  - repeat constructor.
  - reflexivity.
Defined.



